(** * multitool: ordinal suffixes, calendar cells and the month layout

    A shallow embedding of [multitool.py].  Python integers are [Z] (with
    floor division and modulo, which [Z.div] and [Z.modulo] are for a
    positive divisor), Python strings are [string], and the objects the
    formatting code dispatches on are the values of [pyobj].  The parts of
    Python's standard library the script calls ([str.format] with the
    [{:>4}] field, [str.join], [calendar.monthrange], [datetime.now]) are
    modelled in modules of their own, named after the Python modules. *)

From Stdlib Require Import ZArith List String Ascii Bool Lia.
From Stdlib Require Import Numbers.DecimalString.
From Stdlib Require DecimalPos DecimalZ.
Import ListNotations.

#[local] Open Scope string_scope.
#[local] Open Scope Z_scope.

(** ** Python builtins and string methods *)

Module builtins.

(** [str(n)] for an [int]: decimal digits, a leading [-] if negative. *)
Definition str (n : Z) : string := NilZero.string_of_int (Z.to_int n).

Fixpoint spaces (k : nat) : string :=
  match k with
  | O => ""
  | S k' => String " "%char (spaces k')
  end.

(** The replacement field [{:>w}] applied to a string: pad with spaces on
    the left up to [w] characters, never truncate. *)
Definition rjust (w : nat) (s : string) : string :=
  spaces (w - String.length s) ++ s.

(** [sep.join(parts)]. *)
Fixpoint join (sep : string) (parts : list string) : string :=
  match parts with
  | [] => ""
  | [p] => p
  | p :: rest => p ++ sep ++ join sep rest
  end.

(** The slice [s[:k]]. *)
Definition prefix (k : nat) (s : string) : string := substring 0 k s.

Definition upper (c : ascii) : ascii :=
  let n := nat_of_ascii c in
  if (97 <=? n)%nat && (n <=? 122)%nat then ascii_of_nat (n - 32) else c.

Definition lower (c : ascii) : ascii :=
  let n := nat_of_ascii c in
  if (65 <=? n)%nat && (n <=? 90)%nat then ascii_of_nat (n + 32) else c.

Fixpoint map_chars (f : ascii -> ascii) (s : string) : string :=
  match s with
  | EmptyString => EmptyString
  | String c s' => String (f c) (map_chars f s')
  end.

(** [s.capitalize()] on ASCII text. *)
Definition capitalize (s : string) : string :=
  match s with
  | EmptyString => EmptyString
  | String c s' => String (upper c) (map_chars lower s')
  end.

(** [range(lo, hi)] as a list. *)
Definition range (lo hi : Z) : list Z :=
  map (fun i => lo + Z.of_nat i) (seq 0 (Z.to_nat (hi - lo))).

End builtins.

(** ** Objects, exceptions and effects *)

(** The values [format_week] and [get_entry_path] match on: an [int], a
    [str], or [None].  The wildcard arms of the source treat every other
    object as they treat [None]. *)
Inductive pyobj : Type :=
| PyInt (n : Z)
| PyStr (s : string)
| PyNone.

(** The one exception the modelled code can raise; it comes from
    [calendar.monthrange] and is a subclass of [ValueError]. *)
Inductive exn : Type :=
| IllegalMonthError (month : Z).

Inductive outcome (A : Type) : Type :=
| Returns (a : A)
| Raises (e : exn).
Arguments Returns {A} a.
Arguments Raises {A} e.

(** What one call leaves behind: the lines it printed and how it ended. *)
Record run (A : Type) : Type := mkRun {
  stdout : list string;
  result : outcome A
}.
Arguments mkRun {A} stdout result.
Arguments stdout {A} r.
Arguments result {A} r.

Module datetime.

(** The fields of a [datetime] that the script reads. *)
Record datetime : Type := mk { year : Z; month : Z; day : Z }.

Definition MINYEAR : Z := 1.
Definition MAXYEAR : Z := 9999.

Definition _is_leap (year : Z) : bool :=
  (year mod 4 =? 0) && (negb (year mod 100 =? 0) || (year mod 400 =? 0)).

Definition _days_before_year (year : Z) : Z :=
  let y := year - 1 in
  y * 365 + y / 4 - y / 100 + y / 400.

(** [_DAYS_BEFORE_MONTH]: the days of the year before each month starts. *)
Definition _DAYS_BEFORE_MONTH : list Z :=
  [-1; 0; 31; 59; 90; 120; 151; 181; 212; 243; 273; 304; 334].

Definition _days_before_month (year month : Z) : Z :=
  nth (Z.to_nat month) _DAYS_BEFORE_MONTH 0
  + (if (2 <? month) && _is_leap year then 1 else 0).

Definition _ymd2ord (year month day : Z) : Z :=
  _days_before_year year + _days_before_month year month + day.

(** [date(year, month, day).weekday()]: Monday is 0, Sunday is 6. *)
Definition weekday (year month day : Z) : Z :=
  (_ymd2ord year month day + 6) mod 7.

Definition month_names : list string :=
  ["January"; "February"; "March"; "April"; "May"; "June"; "July";
   "August"; "September"; "October"; "November"; "December"].

(** [date.strftime('%B')] in the C locale. *)
Definition strftime_B (date : datetime) : string :=
  nth (Z.to_nat (month date - 1)) month_names "".

End datetime.

(** A computation reads the system clock (the value [datetime.now()]
    yields during the call), may print, and returns or raises. *)
Definition Py (A : Type) : Type := datetime.datetime -> run A.

Definition ret {A} (a : A) : Py A := fun _ => mkRun [] (Returns a).

Definition raise {A} (e : exn) : Py A := fun _ => mkRun [] (Raises e).

Definition bind {A B} (c : Py A) (k : A -> Py B) : Py B :=
  fun clock =>
    let r := c clock in
    match result r with
    | Returns a =>
        let r' := k a clock in
        mkRun (stdout r ++ stdout r')%list (result r')
    | Raises e => mkRun (stdout r) (Raises e)
    end.

Definition now : Py datetime.datetime := fun clock => mkRun [] (Returns clock).

Definition print (line : string) : Py unit := fun _ => mkRun [line] (Returns tt).

Declare Scope py_scope.
Delimit Scope py_scope with py.
Notation "x <- c ;; k" := (bind c (fun x => k))
  (at level 61, c at next level, right associativity) : py_scope.
Notation "' pat <- c ;; k" := (bind c (fun x => match x with pat => k end))
  (at level 61, pat pattern, c at next level, right associativity) : py_scope.
Notation "c ;; k" := (bind c (fun _ => k))
  (at level 61, right associativity) : py_scope.

Module calendar.

Definition February : Z := 2.

Definition mdays : list Z := [0; 31; 28; 31; 30; 31; 30; 31; 31; 30; 31; 30; 31].

Definition isleap (year : Z) : bool :=
  (year mod 4 =? 0) && (negb (year mod 100 =? 0) || (year mod 400 =? 0)).

(** [calendar.weekday]: years outside the range of [datetime] are folded
    into the 400-year cycle first. *)
Definition weekday (year month day : Z) : Z :=
  let year :=
    if (datetime.MINYEAR <=? year) && (year <=? datetime.MAXYEAR)
    then year else 2000 + year mod 400 in
  datetime.weekday year month day.

(** [calendar.monthrange]: the weekday of the first of the month (Monday
    is 0) and the number of days of the month. *)
Definition monthrange (year month : Z) : Py (Z * Z) :=
  if negb ((1 <=? month) && (month <=? 12))
  then raise (IllegalMonthError month)
  else
    let day1 := weekday year month 1 in
    let ndays := nth (Z.to_nat month) mdays 0
                 + (if (month =? February) && isleap year then 1 else 0) in
    ret (day1, ndays).

End calendar.

(** ** The script *)

#[local] Open Scope py_scope.

(** [pathlib.Path] as the list of its segments; [joinpath] with a relative
    segment appends it. *)
Definition Path : Type := list string.

Definition joinpath (p : Path) (segment : string) : Path := (p ++ [segment])%list.

(** [Path(".\\journal\\")]: one segment, kept as the script spells it. *)
Definition __journal_path : Path := [".\journal\"].

Record Weekday : Type := mkWeekday { name : string }.

(** [Weekday.__init__] capitalises the name it is given. *)
Definition Weekday_init (name : string) : Weekday :=
  mkWeekday (builtins.capitalize name).

Definition short (w : Weekday) : string := builtins.prefix 3 (name w).

Definition _us_weekday : list Weekday :=
  [ Weekday_init "Sunday"; Weekday_init "Monday"; Weekday_init "Tuesday";
    Weekday_init "Wednesday"; Weekday_init "Thursday"; Weekday_init "Friday";
    Weekday_init "Saturday" ].

Definition _world_weekday : list Weekday :=
  [ Weekday_init "Monday"; Weekday_init "Tuesday"; Weekday_init "Wednesday";
    Weekday_init "Thursday"; Weekday_init "Friday"; Weekday_init "Saturday";
    Weekday_init "Sunday" ].

(** [get_ordinal_suffix]: the outer [match] compares [n] itself with 11, 12
    and 13; every other [n] is decided by [n % 10]. *)
Definition get_ordinal_suffix (n : Z) : string :=
  if n =? 11 then "th"
  else if n =? 12 then "th"
  else if n =? 13 then "th"
  else
    let r := n mod 10 in
    if r =? 1 then "st"
    else if r =? 2 then "nd"
    else if r =? 3 then "rd"
    else "th".

(** What an f-string or [format] renders an object as. *)
Definition format_obj (o : pyobj) : string :=
  match o with
  | PyInt n => builtins.str n
  | PyStr s => s
  | PyNone => "None"
  end.

(** The local variables of [get_entry_path] when its body has run. *)
Record entry_path_locals : Type := mkEntryPathLocals {
  ep_year_path : Path;
  ep_month_path : Path;
  ep_ord_suffix : string;
  ep_extension : pyobj;
  ep_file_name : string;
  ep_day_path : Path
}.

Definition get_entry_path_body (date : option datetime.datetime) (extension : pyobj)
  : Py entry_path_locals :=
  date <- match date with
          | None => now
          | Some d => ret d
          end ;;
  let year_path := joinpath __journal_path (builtins.str (datetime.year date)) in
  let month_path := joinpath year_path (datetime.strftime_B date) in
  let ord_suffix := get_ordinal_suffix (datetime.day date) in
  let extension :=
    match extension with
    | PyNone => PyStr ""
    | PyStr ext =>
        if negb (String.eqb (builtins.prefix 1 ext) ".") then PyStr ("." ++ ext)
        else extension
    | _ => extension
    end in
  let file_name :=
    builtins.str (datetime.day date) ++ ord_suffix ++ format_obj extension in
  let day_path := joinpath month_path file_name in
  ret (mkEntryPathLocals year_path month_path ord_suffix extension file_name day_path).

(** [get_entry_path]: the body ends after the assignment to [day_path];
    there is no [return], so the call evaluates to [None]. *)
Definition get_entry_path (date : option datetime.datetime) (extension : pyobj)
  : Py (option Path) :=
  _locals <- get_entry_path_body date extension ;;
  ret None.

Definition format_date_table_day (day : Z) : string :=
  let day_ord := get_ordinal_suffix day in
  " " ++ builtins.rjust 4 (builtins.str day ++ day_ord) ++ " ".

(** The inner function of [format_week]. *)
Definition day_formatter (day : pyobj) : string :=
  match day with
  | PyInt day => format_date_table_day day
  | PyStr day => " " ++ builtins.rjust 4 (builtins.prefix 4 day) ++ " "
  | PyNone => "      "
  end.

(** [format_week]: no test on the number of elements, and nothing in it
    raises.  The keyword argument [formatter] is never read. *)
Definition format_week (days : list pyobj) : Py string :=
  ret ("|" ++ builtins.join "|" (map day_formatter days) ++ "|").

Definition _adjust_weekday (weekday : Z) : Z := (weekday + 1) mod 7.

(** The local variables of [format_month] when its body has run. *)
Record format_month_locals : Type := mkFormatMonthLocals {
  fm_year : Z;
  fm_month_start : Z;
  fm_day_count : Z;
  fm_weeks : Z;
  fm_first_week_days : list pyobj;
  fm_first_week : string;
  fm_next_week_start : Z;
  fm_next_week_end : Z
}.

Definition format_month_body (year month : Z) : Py format_month_locals :=
  year <- (if year =? 0
           then (clock <- now ;; ret (datetime.year clock))
           else ret year) ;;
  '(month_start, day_count) <- calendar.monthrange year month ;;
  let month_start := _adjust_weekday month_start in
  let weeks := day_count / 7 + (if negb (day_count mod 7 =? 0) then 1 else 0) in
  let first_week_days :=
    (repeat PyNone (Z.to_nat month_start)
     ++ map PyInt (builtins.range 1 (8 - month_start)))%list in
  first_week <- format_week first_week_days ;;
  let next_week_start := 8 - month_start in
  let next_week_end := next_week_start + 7 in
  print (builtins.str next_week_start) ;;
  ret (mkFormatMonthLocals year month_start day_count weeks first_week_days
         first_week next_week_start next_week_end).

(** [format_month]: the body ends with the [print]; no row after the first
    is built and nothing is returned, so the call evaluates to [None]. *)
Definition format_month (year month : Z) : Py (option string) :=
  _locals <- format_month_body year month ;;
  ret None.

(** ** Vocabulary of the statements *)

(** The cells a month puts in a row: empty, or a day of the month. *)
Definition month_cell (d : pyobj) : Prop :=
  d = PyNone \/ exists n, d = PyInt n /\ 1 <= n <= 31.

(** The row the text describes for cells [c1 .. ck]:
    ["|" + c1 + "|" + ... + ck + "|"]. *)
Fixpoint delimited (cells : list string) : string :=
  match cells with
  | [] => ""
  | c :: rest => c ++ "|" ++ delimited rest
  end.

Definition clock_2026_11_03 : datetime.datetime := datetime.mk 2026 11 3.

(** [year or datetime.now().year]. *)
Definition year_or_now (year : Z) (clock : datetime.datetime) : Z :=
  if year =? 0 then datetime.year clock else year.

Definition month_start_of (year month : Z) : Z :=
  _adjust_weekday (calendar.weekday year month 1).

Definition day_count_of (year month : Z) : Z :=
  nth (Z.to_nat month) calendar.mdays 0
  + (if (month =? calendar.February) && calendar.isleap year then 1 else 0).

(** The non-empty cells of a row, in order. *)
Fixpoint day_cells (days : list pyobj) : list Z :=
  match days with
  | [] => []
  | PyInt n :: rest => n :: day_cells rest
  | _ :: rest => day_cells rest
  end.

(** The number of empty cells a row starts with. *)
Fixpoint leading_empty (days : list pyobj) : nat :=
  match days with
  | PyNone :: rest => S (leading_empty rest)
  | _ => O
  end.

Definition ceil_div (a b : Z) : Z := (a + b - 1) / b.

(** ** The date string and the entry text *)

(** What [str.format] raises: [KeyError] for a field without a keyword
    argument, [ValueError] for a template with an unmatched brace. *)
Inductive format_error : Type :=
| KeyError (key : string)
| ValueError (message : string).

Fixpoint lookup (key : string) (kwargs : list (string * pyobj)) : option pyobj :=
  match kwargs with
  | [] => None
  | (k, v) :: rest => if String.eqb k key then Some v else lookup key rest
  end.

Definition prepend (s : string) (r : format_error + string) : format_error + string :=
  match r with
  | inl e => inl e
  | inr t => inr (s ++ t)
  end.

(** [str.format] with keyword arguments, read from left to right.  [field] is
    [None] in literal text and holds the characters of the field name read
    so far inside braces; [{{] and [}}] are the escaped braces.  Fields are
    plain keyword names, as in the two templates of the script:
    conversions, format specifications and positional fields are left
    out. *)
Fixpoint format_from (template : string) (field : option string)
    (kwargs : list (string * pyobj)) : format_error + string :=
  match template with
  | EmptyString =>
      match field with
      | None => inr ""
      | Some _ => inl (ValueError "expected '}' before end of string")
      end
  | String c rest =>
      match field with
      | None =>
          if Ascii.eqb c "{" then
            match rest with
            | EmptyString => inl (ValueError "Single '{' encountered in format string")
            | String c' rest' =>
                if Ascii.eqb c' "{" then prepend "{" (format_from rest' None kwargs)
                else format_from rest (Some "") kwargs
            end
          else if Ascii.eqb c "}" then
            match rest with
            | EmptyString => inl (ValueError "Single '}' encountered in format string")
            | String c' rest' =>
                if Ascii.eqb c' "}" then prepend "}" (format_from rest' None kwargs)
                else inl (ValueError "Single '}' encountered in format string")
            end
          else prepend (String c "") (format_from rest None kwargs)
      | Some name =>
          if Ascii.eqb c "}" then
            match lookup name kwargs with
            | None => inl (KeyError name)
            | Some v => prepend (format_obj v) (format_from rest None kwargs)
            end
          else format_from rest (Some (name ++ String c "")) kwargs
      end
  end.

Definition format (template : string) (kwargs : list (string * pyobj))
  : format_error + string :=
  format_from template None kwargs.

Definition __date_format : string := "{day_of_week}, {month} {day}, {year}".

Definition journal_entry_template : string := "# {date} : {title}
### What I'm working on:
> 
### Entry:

***
".

Definition day_names : list string :=
  ["Monday"; "Tuesday"; "Wednesday"; "Thursday"; "Friday"; "Saturday"; "Sunday"].

(** [date.strftime('%A')] in the C locale. *)
Definition strftime_A (date : datetime.datetime) : string :=
  nth (Z.to_nat (datetime.weekday (datetime.year date) (datetime.month date)
                   (datetime.day date)))
    day_names "".

(** [get_date_date_string]: prints nothing; the clock is read when [date]
    is [None]. *)
Definition get_date_date_string (date : option datetime.datetime)
    (clock : datetime.datetime) : format_error + string :=
  let date := match date with
              | Some d => d
              | None => clock
              end in
  let day := datetime.day date in
  let day_suffix := get_ordinal_suffix day in
  let day := builtins.str day ++ day_suffix in
  format __date_format
    [ ("day_of_week", PyStr (strftime_A date));
      ("month", PyStr (datetime.strftime_B date));
      ("day", PyStr day);
      ("year", PyInt (datetime.year date)) ].

(** [create_entry_string]: the keyword arguments are those of
    [__date_format], the template formatted is [journal_entry_template]. *)
Definition create_entry_string (clock : datetime.datetime) : format_error + string :=
  let now := clock in
  let day := datetime.day now in
  let dom_suffix := get_ordinal_suffix day in
  let day := builtins.str day ++ dom_suffix in
  let format_args :=
    [ ("day_of_week", PyStr (strftime_A now));
      ("month", PyStr (datetime.strftime_B now));
      ("day", PyStr day);
      ("year", PyInt (datetime.year now)) ] in
  format journal_entry_template format_args.

(** The English rule for the suffix of [n]: ["th"] when the last two digits
    are 11, 12 or 13, otherwise by the last digit. *)
Definition english_ordinal_suffix (n : Z) : string :=
  if (n mod 100 =? 11) || (n mod 100 =? 12) || (n mod 100 =? 13) then "th"
  else if n mod 10 =? 1 then "st"
  else if n mod 10 =? 2 then "nd"
  else if n mod 10 =? 3 then "rd"
  else "th".

(** How often a character occurs in a string. *)
Fixpoint count_char (c : ascii) (s : string) : nat :=
  match s with
  | EmptyString => O
  | String a s' => ((if Ascii.eqb a c then 1 else 0) + count_char c s')%nat
  end.

(** A date as [datetime] accepts it, as far as the script reads it. *)
Definition valid_date (d : datetime.datetime) : Prop :=
  1 <= datetime.month d <= 12 /\ 1 <= datetime.day d <= 31.

(** The extension [get_entry_path] goes on with after its [match]. *)
Definition fixed_extension (extension : pyobj) : pyobj :=
  match extension with
  | PyNone => PyStr ""
  | PyStr ext =>
      if negb (String.eqb (builtins.prefix 1 ext) ".") then PyStr ("." ++ ext)
      else extension
  | _ => extension
  end.

(** The name of the entry file without its extension. *)
Definition day_label (day : Z) : string :=
  builtins.str day ++ get_ordinal_suffix day.

(** Text made of ASCII characters only, where a character of Python is a
    character here. *)
Fixpoint is_ascii (s : string) : bool :=
  match s with
  | EmptyString => true
  | String c s' => (nat_of_ascii c <? 128)%nat && is_ascii s'
  end.

(** CPython refuses to turn an [int] of more than 4300 digits into text
    ([sys.int_info.default_max_str_digits]) and raises [ValueError]; [str]
    and the f-strings return for the others. *)
Definition max_str_digits : Z := 4300.

(** The objects whose rendering returns: [None], every string, and the
    integers of at most [max_str_digits] digits. *)
Definition renderable (d : pyobj) : Prop :=
  match d with
  | PyInt n => Z.abs n < 10 ^ max_str_digits
  | PyStr _ => True
  | PyNone => True
  end.

(** ** Strings and ranges: auxiliary facts *)

Section StringFacts.

Lemma length_append (s t : string) :
  String.length (s ++ t) = (String.length s + String.length t)%nat.
Proof.
  induction s as [|c s IH]; simpl; [reflexivity | now rewrite IH].
Qed.

Lemma spaces_length (k : nat) : String.length (builtins.spaces k) = k.
Proof.
  induction k as [|k IH]; simpl; [reflexivity | now rewrite IH].
Qed.

Lemma rjust_length (w : nat) (s : string) :
  String.length (builtins.rjust w s) = Nat.max w (String.length s).
Proof.
  unfold builtins.rjust. rewrite length_append, spaces_length. lia.
Qed.

Lemma range_In (lo hi n : Z) : In n (builtins.range lo hi) <-> lo <= n < hi.
Proof.
  unfold builtins.range. rewrite in_map_iff. split.
  - intros (i & <- & Hi). apply in_seq in Hi. lia.
  - intros H. exists (Z.to_nat (n - lo)). split; [lia|].
    apply in_seq. lia.
Qed.

Lemma range_length (lo hi : Z) :
  List.length (builtins.range lo hi) = Z.to_nat (hi - lo).
Proof.
  unfold builtins.range. now rewrite length_map, length_seq.
Qed.

(** A boolean test that holds on the whole of [range(lo, hi)] holds at
    each integer of the interval. *)
Lemma forallb_range (P : Z -> bool) (lo hi : Z) :
  forallb P (builtins.range lo hi) = true ->
  forall n, lo <= n < hi -> P n = true.
Proof.
  intros H n Hn. rewrite forallb_forall in H. apply H, range_In, Hn.
Qed.

End StringFacts.

(** ** Ordinal suffixes *)


Lemma get_ordinal_suffix_teens (n : Z) :
  n = 11 \/ n = 12 \/ n = 13 -> get_ordinal_suffix n = "th".
Proof.
  intros [-> | [-> | ->]]; reflexivity.
Qed.

(** Away from 11, 12 and 13 the suffix is a function of the last digit. *)
Lemma get_ordinal_suffix_last_digit (n : Z) :
  n <> 11 -> n <> 12 -> n <> 13 ->
  get_ordinal_suffix n =
    (if n mod 10 =? 1 then "st"
     else if n mod 10 =? 2 then "nd"
     else if n mod 10 =? 3 then "rd" else "th").
Proof.
  intros H11 H12 H13. unfold get_ordinal_suffix.
  destruct (Z.eqb_spec n 11); [contradiction|].
  destruct (Z.eqb_spec n 12); [contradiction|].
  destruct (Z.eqb_spec n 13); [contradiction|].
  reflexivity.
Qed.

(** C4. The claim wants ["th"] whenever [n % 100] is 11, 12 or 13.  The
    source compares [n] itself with 11, 12 and 13, so 111, 112 and 113 fall
    through to the last-digit rule: [get_ordinal_suffix 112] is ["nd"]
    although [112 % 100 = 12]. *)
Theorem get_ordinal_suffix_112 :
  112 mod 100 = 12 /\ get_ordinal_suffix 112 = "nd" /\
  111 mod 100 = 11 /\ get_ordinal_suffix 111 = "st" /\
  113 mod 100 = 13 /\ get_ordinal_suffix 113 = "rd".
Proof.
  repeat split.
Qed.

(** C6. For [n >= 0]: if [n % 10 = 1] and [n % 100 <> 11] the suffix is
    ["st"]; if [n % 10 = 2] and [n % 100 <> 12] it is ["nd"]; if
    [n % 10 = 3] and [n % 100 <> 13] it is ["rd"]. *)
Theorem get_ordinal_suffix_st_nd_rd (n : Z) :
  0 <= n ->
  (n mod 10 = 1 -> n mod 100 <> 11 -> get_ordinal_suffix n = "st") /\
  (n mod 10 = 2 -> n mod 100 <> 12 -> get_ordinal_suffix n = "nd") /\
  (n mod 10 = 3 -> n mod 100 <> 13 -> get_ordinal_suffix n = "rd").
Proof.
  intros _.
  assert (Hne : forall k, n mod 10 <> k mod 10 -> n <> k) by congruence.
  assert (Hne' : forall k, n mod 100 <> k mod 100 -> n <> k) by congruence.
  repeat split; intros Hd Hh;
    rewrite get_ordinal_suffix_last_digit, Hd;
    try reflexivity;
    first [ apply Hne'; exact Hh
          | apply Hne; rewrite Hd; discriminate ].
Qed.

Lemma get_ordinal_suffix_st_nd_rd_witness :
  get_ordinal_suffix 21 = "st" /\ get_ordinal_suffix 102 = "nd" /\
  get_ordinal_suffix 3 = "rd".
Proof.
  split; [|split].
  - apply (get_ordinal_suffix_st_nd_rd 21); [lia | reflexivity | discriminate].
  - apply (get_ordinal_suffix_st_nd_rd 102); [lia | reflexivity | discriminate].
  - apply (get_ordinal_suffix_st_nd_rd 3); [lia | reflexivity | discriminate].
Defined.

(** ** Cells *)

Lemma renderable_small (n : Z) : Z.abs n < 10 ^ 4 -> renderable (PyInt n).
Proof.
  intros Hn. unfold renderable, max_str_digits.
  apply (Z.lt_le_trans _ (10 ^ 4)); [exact Hn|].
  apply Z.pow_le_mono_r; lia.
Qed.

Lemma month_cell_renderable (d : pyobj) : month_cell d -> renderable d.
Proof.
  intros [-> | (n & -> & Hn)]; [exact I|].
  apply renderable_small. change (10 ^ 4) with 10000. lia.
Qed.

(** A day of the month with its suffix takes three or four characters. *)
Lemma day_label_length (n : Z) :
  1 <= n <= 31 ->
  (String.length (builtins.str n ++ get_ordinal_suffix n) <= 4)%nat.
Proof.
  intros Hn. apply Nat.leb_le.
  apply (forallb_range
           (fun k => (String.length (builtins.str k ++ get_ordinal_suffix k) <=? 4)%nat)
           1 32); [vm_compute; reflexivity | lia].
Qed.

Lemma format_date_table_day_length (n : Z) :
  1 <= n <= 31 -> String.length (format_date_table_day n) = 6%nat.
Proof.
  intros Hn. unfold format_date_table_day.
  rewrite !length_append, rjust_length. simpl String.length.
  pose proof (day_label_length n Hn). lia.
Qed.

Lemma day_formatter_month_cell (d : pyobj) :
  month_cell d -> String.length (day_formatter d) = 6%nat.
Proof.
  intros [-> | (n & -> & Hn)]; simpl.
  - reflexivity.
  - now apply format_date_table_day_length.
Qed.

Lemma cells_width (days : list pyobj) :
  Forall month_cell days ->
  Forall (fun cell => String.length cell = 6%nat) (map day_formatter days).
Proof.
  intros Hdays. apply Forall_map.
  eapply Forall_impl; [|exact Hdays].
  intros d Hd. now apply day_formatter_month_cell.
Qed.

Lemma month_cell_None : month_cell PyNone.
Proof. now left. Qed.

Lemma month_cell_Int (n : Z) : 1 <= n <= 31 -> month_cell (PyInt n).
Proof. intros Hn. right. now exists n. Qed.

(** The characters of a day cell: the margin, one more space before a day
    of one digit, the digits, the suffix, the margin. *)
Lemma format_date_table_day_chars (n : Z) :
  (1 <= n <= 9 ->
   format_date_table_day n
   = "  " ++ builtins.str n ++ get_ordinal_suffix n ++ " ") /\
  (10 <= n <= 31 ->
   format_date_table_day n
   = " " ++ builtins.str n ++ get_ordinal_suffix n ++ " ").
Proof.
  split; intros Hn; apply String.eqb_eq.
  - apply (forallb_range
             (fun k => String.eqb (format_date_table_day k)
                         ("  " ++ builtins.str k ++ get_ordinal_suffix k ++ " "))
             1 10); [vm_compute; reflexivity | lia].
  - apply (forallb_range
             (fun k => String.eqb (format_date_table_day k)
                         (" " ++ builtins.str k ++ get_ordinal_suffix k ++ " "))
             10 32); [vm_compute; reflexivity | lia].
Qed.

(** C7. For a day [n] of 1..31, [format_date_table_day n] is one space, the
    label [str(n)] plus suffix right-justified in exactly four characters,
    and one space: six characters.  Written out, the cell of a day of one
    digit is two spaces, the digit, the suffix and a space; the cell of a
    day of two digits is a space, the digits, the suffix and a space.  The
    empty cell of [day_formatter] is six spaces, so all cells of a row of
    month cells have the same width. *)
Theorem cell_width_uniform :
  (forall n, 1 <= n <= 31 ->
     let label := builtins.rjust 4 (builtins.str n ++ get_ordinal_suffix n) in
     format_date_table_day n = " " ++ label ++ " " /\
     String.length label = 4%nat /\
     String.length (format_date_table_day n) = 6%nat /\
     day_formatter (PyInt n) = format_date_table_day n /\
     (n <= 9 ->
      format_date_table_day n
      = "  " ++ builtins.str n ++ get_ordinal_suffix n ++ " ") /\
     (10 <= n ->
      format_date_table_day n
      = " " ++ builtins.str n ++ get_ordinal_suffix n ++ " ")) /\
  day_formatter PyNone = "      " /\
  String.length (day_formatter PyNone) = 6%nat /\
  (forall days, Forall month_cell days ->
     Forall (fun cell => String.length cell = 6%nat) (map day_formatter days)).
Proof.
  split; [|split; [|split]].
  - intros n Hn label.
    destruct (format_date_table_day_chars n) as (H1 & H2).
    repeat split.
    + unfold label. rewrite rjust_length.
      pose proof (day_label_length n Hn). lia.
    + now apply format_date_table_day_length.
    + intros H9. apply H1. lia.
    + intros H10. apply H2. lia.
  - reflexivity.
  - reflexivity.
  - exact cells_width.
Qed.

Lemma cell_width_uniform_witness :
  String.length (format_date_table_day 22) = 6%nat /\
  format_date_table_day 3 = "  3rd " /\
  format_date_table_day 22 = " 22nd " /\
  Forall (fun cell => String.length cell = 6%nat)
    (map day_formatter [PyNone; PyInt 1; PyInt 31]).
Proof.
  split; [|split; [|split]].
  - apply (proj1 cell_width_uniform 22). lia.
  - destruct (proj1 cell_width_uniform 3 ltac:(lia)) as (_ & _ & _ & _ & H & _).
    rewrite H by lia. reflexivity.
  - destruct (proj1 cell_width_uniform 22 ltac:(lia)) as (_ & _ & _ & _ & _ & H).
    rewrite H by lia. reflexivity.
  - apply (proj2 (proj2 (proj2 cell_width_uniform))).
    constructor; [apply month_cell_None|].
    constructor; [apply month_cell_Int; lia|].
    constructor; [apply month_cell_Int; lia|].
    constructor.
Defined.

(** ** Rows *)

Lemma append_assoc (s t u : string) : (s ++ t) ++ u = s ++ (t ++ u).
Proof.
  induction s as [|a s IH]; simpl; [reflexivity | now rewrite IH].
Qed.

Lemma join_cons (sep c c' : string) (cells : list string) :
  builtins.join sep (c :: c' :: cells) = c ++ sep ++ builtins.join sep (c' :: cells).
Proof. reflexivity. Qed.

Lemma join_delimited (c : string) (cells : list string) :
  builtins.join "|" (c :: cells) ++ "|" = delimited (c :: cells).
Proof.
  revert c. induction cells as [|c' cells IH]; intros c.
  - reflexivity.
  - rewrite join_cons, !append_assoc, IH. reflexivity.
Qed.

Lemma delimited_length (cells : list string) :
  Forall (fun cell => String.length cell = 6%nat) cells ->
  String.length (delimited cells) = (7 * List.length cells)%nat.
Proof.
  induction 1 as [|c cells Hc _ IH]; [reflexivity|].
  cbn [delimited List.length]. rewrite !length_append, Hc, IH.
  simpl String.length. lia.
Qed.

(** C5, as the source has it.  [format_week] makes no test on the number of
    elements: for every sequence of renderable cells, of any length, it
    returns normally and prints nothing.  For a non-empty sequence the row is
    ["|" + c1 + "|" + ... + ck + "|"] with one cell per element, and when
    the cells are month cells the row has [7 * k + 1] characters: 50 for
    the seven cells of a week. *)
Theorem format_week_returns (days : list pyobj) (clock : datetime.datetime) :
  Forall renderable days ->
  exists row,
    format_week days clock = mkRun [] (Returns row) /\
    (days <> [] -> row = "|" ++ delimited (map day_formatter days)) /\
    (days <> [] -> Forall month_cell days ->
       String.length row = (7 * List.length days + 1)%nat) /\
    (List.length days = 7%nat -> Forall month_cell days ->
       String.length row = 50%nat).
Proof.
  intros _.
  eexists. split; [reflexivity|].
  assert (Hrow : days <> [] ->
                 "|" ++ builtins.join "|" (map day_formatter days) ++ "|"
                 = "|" ++ delimited (map day_formatter days)).
  { destruct days as [|d days]; [congruence|]. intros _.
    cbn [map]. now rewrite join_delimited. }
  assert (Hlen : days <> [] -> Forall month_cell days ->
                 String.length ("|" ++ builtins.join "|" (map day_formatter days) ++ "|")
                 = (7 * List.length days + 1)%nat).
  { intros Hne Hcells. rewrite (Hrow Hne).
    change (String.length ("|" ++ ?s)) with (S (String.length s)).
    rewrite delimited_length, length_map; [lia|].
    now apply cells_width. }
  split; [exact Hrow|]. split; [exact Hlen|].
  intros H7 Hcells. rewrite Hlen, H7; [reflexivity| |exact Hcells].
  intros ->. discriminate H7.
Qed.

Lemma format_week_returns_witness :
  exists row,
    format_week (PyNone :: map PyInt (builtins.range 1 7)) clock_2026_11_03
    = mkRun [] (Returns row)
    /\ row = "|      |  1st |  2nd |  3rd |  4th |  5th |  6th |"
    /\ String.length row = 50%nat.
Proof.
  assert (Hcells : Forall month_cell (PyNone :: map PyInt (builtins.range 1 7))).
  { constructor; [apply month_cell_None|].
    apply Forall_forall. intros d Hd.
    apply in_map_iff in Hd. destruct Hd as (n & <- & Hn).
    apply range_In in Hn. apply month_cell_Int. lia. }
  destruct (format_week_returns (PyNone :: map PyInt (builtins.range 1 7))
              clock_2026_11_03) as (row & Hrun & Hrow & _ & H50).
  { eapply Forall_impl; [|exact Hcells]. exact month_cell_renderable. }
  exists row. split; [exact Hrun|]. split.
  - rewrite Hrow; [reflexivity | discriminate].
  - apply H50; [reflexivity|].
    constructor; [apply month_cell_None|].
    apply Forall_forall. intros d Hd.
    apply in_map_iff in Hd. destruct Hd as (n & <- & Hn).
    apply range_In in Hn. apply month_cell_Int. lia.
Defined.

(** C5, as the claim states it, fails: a row of six cells is rendered, not
    refused. *)
Lemma format_week_six_cells_not_refused :
  ~ (forall (days : list pyobj) (clock : datetime.datetime),
       List.length days <> 7%nat ->
       exists e, result (format_week days clock) = Raises e).
Proof.
  intros H.
  destruct (H (repeat PyNone 6) clock_2026_11_03) as (e & He).
  - discriminate.
  - discriminate He.
Qed.

(** ** The month *)

Lemma month_in_range (month : Z) :
  1 <= month <= 12 -> negb ((1 <=? month) && (month <=? 12)) = false.
Proof.
  intros [H1 H12].
  apply Z.leb_le in H1. apply Z.leb_le in H12. now rewrite H1, H12.
Qed.

Lemma month_out_of_range (month : Z) :
  ~ (1 <= month <= 12) -> negb ((1 <=? month) && (month <=? 12)) = true.
Proof.
  intros H.
  destruct (Z.leb_spec 1 month); destruct (Z.leb_spec month 12);
    try reflexivity; lia.
Qed.

Lemma year_or_now_run (year : Z) (clock : datetime.datetime) :
  (if year =? 0 then bind now (fun c => ret (datetime.year c)) else ret year) clock
  = mkRun [] (Returns (year_or_now year clock)).
Proof.
  unfold year_or_now. now destruct (year =? 0).
Qed.

(** With a month of 1..12 the body runs to its end: it prints
    [next_week_start] and leaves these locals. *)
Lemma format_month_body_valid (year month : Z) (clock : datetime.datetime) :
  1 <= month <= 12 ->
  let y := year_or_now year clock in
  let ms := month_start_of y month in
  let days := (repeat PyNone (Z.to_nat ms)
               ++ map PyInt (builtins.range 1 (8 - ms)))%list in
  format_month_body year month clock
  = mkRun [builtins.str (8 - ms)]
      (Returns
         (mkFormatMonthLocals y ms (day_count_of y month)
            (day_count_of y month / 7
             + (if negb (day_count_of y month mod 7 =? 0) then 1 else 0))
            days
            ("|" ++ builtins.join "|" (map day_formatter days) ++ "|")
            (8 - ms) (8 - ms + 7))).
Proof.
  intros Hm y ms days.
  unfold format_month_body, bind at 1.
  rewrite year_or_now_run. cbn [result stdout].
  unfold calendar.monthrange. rewrite (month_in_range month Hm).
  reflexivity.
Qed.

(** With any other month [calendar.monthrange] raises before anything is
    printed. *)
Lemma format_month_body_invalid (year month : Z) (clock : datetime.datetime) :
  ~ (1 <= month <= 12) ->
  format_month_body year month clock = mkRun [] (Raises (IllegalMonthError month)).
Proof.
  intros Hm.
  unfold format_month_body, bind at 1.
  rewrite year_or_now_run. cbn [result stdout].
  unfold calendar.monthrange. rewrite (month_out_of_range month Hm).
  reflexivity.
Qed.

Lemma format_month_valid (year month : Z) (clock : datetime.datetime) :
  1 <= month <= 12 ->
  format_month year month clock
  = mkRun [builtins.str (8 - month_start_of (year_or_now year clock) month)]
      (Returns None).
Proof.
  intros Hm. unfold format_month, bind.
  rewrite (format_month_body_valid year month clock Hm). reflexivity.
Qed.

Lemma format_month_invalid (year month : Z) (clock : datetime.datetime) :
  ~ (1 <= month <= 12) ->
  format_month year month clock = mkRun [] (Raises (IllegalMonthError month)).
Proof.
  intros Hm. unfold format_month, bind.
  rewrite (format_month_body_invalid year month clock Hm). reflexivity.
Qed.

Lemma month_valid_dec (month : Z) : {1 <= month <= 12} + {~ (1 <= month <= 12)}.
Proof.
  destruct (Z_le_dec 1 month); destruct (Z_le_dec month 12);
    [left | right | right | right]; lia.
Qed.

Lemma calendar_weekday_bound (year month day : Z) :
  0 <= calendar.weekday year month day <= 6.
Proof.
  unfold calendar.weekday, datetime.weekday.
  match goal with |- _ <= ?a mod 7 <= _ => pose proof (Z.mod_pos_bound a 7) end.
  lia.
Qed.

(** The two tables of the script name the same day at a Monday-first index
    and at that index shifted by [_adjust_weekday]. *)
Lemma weekday_tables_aligned (wd : Z) :
  0 <= wd <= 6 ->
  nth_error _us_weekday (Z.to_nat (_adjust_weekday wd))
  = nth_error _world_weekday (Z.to_nat wd).
Proof.
  intros H.
  assert (Hcases : wd = 0 \/ wd = 1 \/ wd = 2 \/ wd = 3 \/ wd = 4 \/ wd = 5 \/ wd = 6)
    by lia.
  repeat (destruct Hcases as [-> | Hcases]; [reflexivity|]).
  now subst.
Qed.

Lemma leading_empty_padding (k : nat) (l : list Z) :
  leading_empty (repeat PyNone k ++ map PyInt l)%list = k.
Proof.
  induction k as [|k IH]; simpl.
  - now destruct l.
  - now rewrite IH.
Qed.

Lemma day_cells_padding (k : nat) (l : list Z) :
  day_cells (repeat PyNone k ++ map PyInt l)%list = l.
Proof.
  induction k as [|k IH]; simpl; [|exact IH].
  induction l as [|n l IHl]; simpl; [reflexivity | now rewrite IHl].
Qed.

(** For every month of 1..12 the only row built is the first week: its day
    cells are 1 up to [7 - month_start], at most seven of the 28 or more
    days of the month. *)
Lemma format_month_first_week_only (year month : Z) (clock : datetime.datetime) :
  1 <= month <= 12 ->
  exists L,
    result (format_month_body year month clock) = Returns L /\
    day_cells (fm_first_week_days L) = builtins.range 1 (8 - fm_month_start L) /\
    (List.length (day_cells (fm_first_week_days L)) <= 7)%nat /\
    28 <= fm_day_count L.
Proof.
  intros Hm. eexists. rewrite format_month_body_valid by exact Hm.
  split; [reflexivity|].
  cbn [fm_first_week_days fm_month_start fm_day_count].
  rewrite day_cells_padding, range_length.
  split; [reflexivity|]. split.
  - unfold month_start_of, _adjust_weekday.
    match goal with |- context [?a mod 7] => pose proof (Z.mod_pos_bound a 7) end.
    lia.
  - unfold day_count_of.
    assert (Hcases : month = 1 \/ month = 2 \/ month = 3 \/ month = 4 \/
                     month = 5 \/ month = 6 \/ month = 7 \/ month = 8 \/
                     month = 9 \/ month = 10 \/ month = 11 \/ month = 12) by lia.
    destruct ((month =? calendar.February) && calendar.isleap _);
      repeat (destruct Hcases as [-> | Hcases]; [now apply Z.leb_le|]);
      subst; now apply Z.leb_le.
Qed.

(** Known dates, Monday being 0: 1 January 2024 was a Monday, 1 February
    2024 a Thursday, 1 October 2023 a Sunday. *)
Example calendar_weekday_known :
  calendar.weekday 2024 1 1 = 0 /\ calendar.weekday 2024 2 1 = 3 /\
  calendar.weekday 2023 10 1 = 6.
Proof. repeat split. Qed.

(** C1. The claim wants every week row of the month returned.  The source
    stops after the first week: for February 2024 it renders the row of
    days 1 to 3 out of 29, keeps it in a local, prints [next_week_start]
    and returns [None]. *)
Theorem format_month_feb_2024 (clock : datetime.datetime) :
  format_month 2024 2 clock = mkRun ["4"] (Returns None) /\
  exists L,
    result (format_month_body 2024 2 clock) = Returns L /\
    fm_day_count L = 29 /\
    fm_first_week L = "|      |      |      |      |  1st |  2nd |  3rd |" /\
    day_cells (fm_first_week_days L) = [1; 2; 3] /\
    day_cells (fm_first_week_days L) <> builtins.range 1 (fm_day_count L + 1).
Proof.
  split.
  - now rewrite format_month_valid by lia.
  - eexists. rewrite format_month_body_valid by lia.
    split; [reflexivity|]. cbn [fm_day_count fm_first_week fm_first_week_days].
    repeat split. discriminate.
Qed.

(** C2. The claim wants [ceil((start_weekday + day_count) / 7)] rows.  The
    source counts [weeks] from [day_count] alone: for February 2023, whose
    28 days start on a Wednesday and spread over five rows, [weeks] is 4;
    and only the first row is ever rendered. *)
Theorem format_month_weeks_feb_2023 (clock : datetime.datetime) :
  exists L,
    result (format_month_body 2023 2 clock) = Returns L /\
    fm_day_count L = 28 /\
    fm_month_start L = 3 /\
    calendar.weekday 2023 2 1 = 2 /\
    fm_weeks L = 4 /\
    ceil_div (fm_month_start L + fm_day_count L) 7 = 5 /\
    ceil_div (calendar.weekday 2023 2 1 + fm_day_count L) 7 = 5.
Proof.
  eexists. rewrite format_month_body_valid by lia.
  split; [reflexivity|]. repeat split.
Qed.

(** C3, as the source has it.  [calendar.monthrange] gives the weekday of
    the first of the month with Monday as 0; [_adjust_weekday] turns it into
    the Sunday-first index, the one of the table [_us_weekday]: 0 for a
    Sunday, 1 for a Monday, up to 6 for a Saturday.  That index is the
    number of empty cells the first row starts with. *)
Theorem month_start_sunday_first (year month : Z) (clock : datetime.datetime) :
  1 <= month <= 12 ->
  exists L,
    result (format_month_body year month clock) = Returns L /\
    fm_year L = year_or_now year clock /\
    let wd := calendar.weekday (fm_year L) month 1 in
    0 <= wd <= 6 /\
    fm_month_start L = (wd + 1) mod 7 /\
    (wd = 6 -> fm_month_start L = 0) /\
    (wd = 0 -> fm_month_start L = 1) /\
    (wd < 6 -> fm_month_start L = wd + 1) /\
    nth_error _us_weekday (Z.to_nat (fm_month_start L))
    = nth_error _world_weekday (Z.to_nat wd) /\
    leading_empty (fm_first_week_days L) = Z.to_nat (fm_month_start L).
Proof.
  intros Hm. eexists. rewrite format_month_body_valid by exact Hm.
  split; [reflexivity|].
  cbn [fm_year fm_month_start fm_first_week_days].
  set (y := year_or_now year clock).
  pose proof (calendar_weekday_bound y month 1) as Hwd.
  unfold month_start_of.
  set (wd := calendar.weekday y month 1) in *.
  split; [reflexivity|]. cbv zeta.
  split; [exact Hwd|].
  split; [reflexivity|].
  split; [intros ->; reflexivity|].
  split; [intros ->; reflexivity|].
  split.
  - intros Hlt. unfold _adjust_weekday. apply Z.mod_small. lia.
  - split; [now apply weekday_tables_aligned|].
    apply leading_empty_padding.
Qed.

Lemma month_start_sunday_first_witness :
  exists L,
    result (format_month_body 2024 1 clock_2026_11_03) = Returns L /\
    calendar.weekday 2024 1 1 = 0 /\
    fm_month_start L = 1 /\
    leading_empty (fm_first_week_days L) = 1%nat.
Proof.
  destruct (month_start_sunday_first 2024 1 clock_2026_11_03)
    as (L & Hrun & Hy & _ & _ & _ & Hmon & _ & _ & Hpad); [lia|].
  exists L. split; [exact Hrun|].
  rewrite Hy in Hmon. split; [reflexivity|].
  split; [apply Hmon; reflexivity|].
  rewrite Hpad, Hmon; reflexivity.
Defined.

(** C3, as the claim states it, fails: 1 January 2024 is a Monday and the
    padding used for that month is 1, not 0. *)
Lemma month_start_monday_not_zero :
  ~ (forall (year month : Z) (clock : datetime.datetime) (L : format_month_locals),
       1 <= month <= 12 ->
       result (format_month_body year month clock) = Returns L ->
       calendar.weekday (fm_year L) month 1 = 0 ->
       fm_month_start L = 0).
Proof.
  intros H.
  pose proof (format_month_body_valid 2024 1 clock_2026_11_03 ltac:(lia)) as Hrun.
  cbv zeta in Hrun.
  eapply (f_equal result) in Hrun. cbn [result] in Hrun.
  specialize (H 2024 1 clock_2026_11_03 _ ltac:(lia) Hrun eq_refl).
  discriminate H.
Qed.

(** C8. [format_month] raises if and only if the month is outside 1..12;
    the exception is the [IllegalMonthError] of [calendar.monthrange], a
    [ValueError].  With a month of 1..12 the call returns, whatever the
    year. *)
Theorem format_month_raises_iff (year month : Z) (clock : datetime.datetime) :
  ((exists e, result (format_month year month clock) = Raises e)
   <-> ~ (1 <= month <= 12)) /\
  (result (format_month year month clock) = Raises (IllegalMonthError month)
   <-> ~ (1 <= month <= 12)) /\
  (1 <= month <= 12 -> result (format_month year month clock) = Returns None).
Proof.
  destruct (month_valid_dec month) as [Hm | Hm].
  - rewrite (format_month_valid year month clock Hm). cbn [result].
    repeat split; try tauto; try discriminate.
    intros (e & He). discriminate He.
  - rewrite (format_month_invalid year month clock Hm). cbn [result].
    repeat split; try tauto. intros _. now exists (IllegalMonthError month).
Qed.

Lemma format_month_raises_iff_witness :
  result (format_month 2024 13 clock_2026_11_03) = Raises (IllegalMonthError 13) /\
  result (format_month 2024 12 clock_2026_11_03) = Returns None.
Proof.
  split.
  - apply (proj1 (proj2 (format_month_raises_iff 2024 13 clock_2026_11_03))). lia.
  - apply (proj2 (proj2 (format_month_raises_iff 2024 12 clock_2026_11_03))). lia.
Defined.

(** C9. Whatever the date, the clock and the extension ([None], a string,
    or an integer that can be rendered), [get_entry_path] builds the path
    of the entry in the local [day_path] and then returns [None], printing
    nothing. *)
Theorem get_entry_path_returns_None
  (date : option datetime.datetime) (extension : pyobj) (clock : datetime.datetime) :
  renderable extension ->
  get_entry_path date extension clock = mkRun [] (Returns None) /\
  exists L,
    get_entry_path_body date extension clock = mkRun [] (Returns L) /\
    ep_day_path L = joinpath (ep_month_path L) (ep_file_name L) /\
    ep_day_path L <> [].
Proof.
  intros _.
  split.
  - destruct date; reflexivity.
  - destruct date; (eexists; split; [reflexivity|]);
      cbn [ep_day_path ep_month_path ep_file_name];
      (split; [reflexivity|]); unfold joinpath;
      intros H; apply app_eq_nil in H; destruct H as [_ H]; discriminate H.
Qed.

Lemma get_entry_path_returns_None_witness :
  get_entry_path None (PyStr ".md") clock_2026_11_03 = mkRun [] (Returns None) /\
  get_entry_path (Some (datetime.mk 2024 2 29)) PyNone clock_2026_11_03
  = mkRun [] (Returns None).
Proof.
  split.
  - apply (get_entry_path_returns_None None (PyStr ".md") clock_2026_11_03). exact I.
  - apply (get_entry_path_returns_None (Some (datetime.mk 2024 2 29)) PyNone
             clock_2026_11_03). exact I.
Defined.

(** C10. With [year = 0] the year of the system clock is used in its place,
    so the output (what is printed and what is returned or raised) can
    differ between two clocks; with any other year the output does not
    depend on the clock. *)
Theorem format_month_clock_dependence :
  (forall month clock,
     format_month 0 month clock = format_month (datetime.year clock) month clock) /\
  (exists month clock1 clock2,
     format_month 0 month clock1 <> format_month 0 month clock2) /\
  (forall year month clock1 clock2,
     year <> 0 ->
     format_month year month clock1 = format_month year month clock2).
Proof.
  split; [|split].
  - intros month clock.
    assert (Hy : year_or_now 0 clock = year_or_now (datetime.year clock) clock).
    { unfold year_or_now. now destruct (datetime.year clock =? 0). }
    destruct (month_valid_dec month) as [Hm | Hm].
    + now rewrite !format_month_valid, Hy by exact Hm.
    + now rewrite !format_month_invalid by exact Hm.
  - exists 1, (datetime.mk 2023 6 15), (datetime.mk 2024 6 15).
    rewrite !format_month_valid by lia. discriminate.
  - intros year month clock1 clock2 Hyear.
    assert (Hy : forall clock, year_or_now year clock = year).
    { intros clock. unfold year_or_now.
      destruct (Z.eqb_spec year 0); [contradiction | reflexivity]. }
    destruct (month_valid_dec month) as [Hm | Hm].
    + now rewrite !format_month_valid, !Hy by exact Hm.
    + now rewrite !format_month_invalid by exact Hm.
Qed.

Lemma format_month_clock_dependence_witness :
  format_month 2024 2 (datetime.mk 2023 6 15)
  = format_month 2024 2 (datetime.mk 2031 1 1).
Proof.
  apply (proj2 (proj2 format_month_clock_dependence)). lia.
Defined.

(** ** More on suffixes and cells *)

Lemma last_digit_of_last_two (n : Z) : n mod 10 = (n mod 100) mod 10.
Proof.
  pose proof (Z.div_mod n 100 ltac:(lia)) as H100.
  pose proof (Z.mod_pos_bound n 100 ltac:(lia)) as B100.
  apply (Z.mod_unique_pos _ _ (n / 10 - 10 * (n / 100))).
  - apply Z.mod_pos_bound. lia.
  - pose proof (Z.div_mod n 10 ltac:(lia)). lia.
Qed.

(** X1. [get_ordinal_suffix] gives the suffix of the English rule exactly
    for 11, 12, 13 and the integers whose last two digits are not 11, 12 or
    13; so it does for every [n] of 0..110, the days of a month among
    them. *)
Theorem get_ordinal_suffix_english :
  (forall n,
     get_ordinal_suffix n = english_ordinal_suffix n <->
     (n = 11 \/ n = 12 \/ n = 13 \/
      ~ (n mod 100 = 11 \/ n mod 100 = 12 \/ n mod 100 = 13))) /\
  (forall n, 0 <= n <= 110 -> get_ordinal_suffix n = english_ordinal_suffix n).
Proof.
  assert (Hiff : forall n,
     get_ordinal_suffix n = english_ordinal_suffix n <->
     (n = 11 \/ n = 12 \/ n = 13 \/
      ~ (n mod 100 = 11 \/ n mod 100 = 12 \/ n mod 100 = 13))).
  { intros n.
    destruct (Z.eq_dec n 11) as [-> | H11]; [split; [now left | reflexivity]|].
    destruct (Z.eq_dec n 12) as [-> | H12]; [split; [now right; left | reflexivity]|].
    destruct (Z.eq_dec n 13) as [-> | H13];
      [split; [now right; right; left | reflexivity]|].
    rewrite (get_ordinal_suffix_last_digit n H11 H12 H13).
    unfold english_ordinal_suffix. rewrite (last_digit_of_last_two n).
    destruct (Z.eqb_spec (n mod 100) 11) as [-> | N11];
      [split; [discriminate | lia]|].
    destruct (Z.eqb_spec (n mod 100) 12) as [-> | N12];
      [split; [discriminate | lia]|].
    destruct (Z.eqb_spec (n mod 100) 13) as [-> | N13];
      [split; [discriminate | lia]|].
    cbn [orb]. split; [intros _; lia | reflexivity]. }
  split; [exact Hiff|].
  intros n Hn. apply Hiff.
  destruct (Z.eq_dec n 11); [now left|].
  destruct (Z.eq_dec n 12); [now right; left|].
  destruct (Z.eq_dec n 13); [now right; right; left|].
  right; right; right.
  assert (Hsmall : n < 100 -> n mod 100 = n) by (intros; apply Z.mod_small; lia).
  assert (Hbig : 100 <= n -> n mod 100 = n - 100).
  { intros. symmetry. apply (Z.mod_unique_pos _ _ 1); lia. }
  destruct (Z_lt_le_dec n 100); [rewrite Hsmall | rewrite Hbig]; lia.
Qed.

Lemma get_ordinal_suffix_english_witness :
  get_ordinal_suffix 23 = english_ordinal_suffix 23.
Proof.
  apply (proj2 get_ordinal_suffix_english 23). lia.
Defined.

Lemma prefix_length (k : nat) (s : string) :
  String.length (builtins.prefix k s) = Nat.min k (String.length s).
Proof.
  unfold builtins.prefix. revert s.
  induction k as [|k IH]; intros [|c s]; simpl; try reflexivity.
  now rewrite IH.
Qed.



(** ** More on rows *)

Lemma format_week_run (days : list pyobj) (clock : datetime.datetime) :
  format_week days clock
  = mkRun [] (Returns ("|" ++ builtins.join "|" (map day_formatter days) ++ "|")).
Proof. reflexivity. Qed.

Lemma row_delimited (d : pyobj) (days : list pyobj) :
  "|" ++ builtins.join "|" (map day_formatter (d :: days)) ++ "|"
  = "|" ++ delimited (map day_formatter (d :: days)).
Proof.
  cbn [map]. now rewrite join_delimited.
Qed.

Lemma count_char_append (c : ascii) (s t : string) :
  count_char c (s ++ t) = (count_char c s + count_char c t)%nat.
Proof.
  induction s as [|a s IH]; simpl; [reflexivity | rewrite IH; lia].
Qed.

(** The cell of an empty slot or of a day of the month holds no pipe. *)
Lemma month_cell_no_pipe (d : pyobj) :
  month_cell d -> count_char "|" (day_formatter d) = 0%nat.
Proof.
  intros [-> | (n & -> & Hn)]; [reflexivity|].
  apply Nat.eqb_eq.
  apply (forallb_range
           (fun k => (count_char "|" (day_formatter (PyInt k)) =? 0)%nat) 1 32);
    [vm_compute; reflexivity | lia].
Qed.

Lemma delimited_pipes (days : list pyobj) :
  Forall month_cell days ->
  count_char "|" (delimited (map day_formatter days)) = List.length days.
Proof.
  induction 1 as [|d days Hd _ IH]; [reflexivity|].
  cbn [map delimited List.length].
  rewrite !count_char_append, (month_cell_no_pipe d Hd), IH. reflexivity.
Qed.

(** X3. The row of [k >= 1] month cells holds exactly [k + 1] pipes, one
    before each cell and one at the end; the row of no cell at all is
    ["||"]. *)
Theorem format_week_pipes (days : list pyobj) (clock : datetime.datetime) :
  Forall month_cell days ->
  exists row,
    format_week days clock = mkRun [] (Returns row) /\
    (days = [] -> row = "||") /\
    (days <> [] -> count_char "|" row = S (List.length days)).
Proof.
  intros Hcells. eexists. split; [apply format_week_run|]. split.
  - now intros ->.
  - destruct days as [|d days]; [congruence|]. intros _.
    rewrite row_delimited.
    change (count_char "|" ("|" ++ ?s)) with (S (count_char "|" s)).
    now rewrite delimited_pipes.
Qed.

Lemma format_week_pipes_witness :
  exists row,
    format_week [PyNone; PyInt 1; PyInt 2] clock_2026_11_03 = mkRun [] (Returns row) /\
    count_char "|" row = 4%nat.
Proof.
  destruct (format_week_pipes [PyNone; PyInt 1; PyInt 2] clock_2026_11_03)
    as (row & Hrun & _ & Hcount).
  - constructor; [apply month_cell_None|].
    constructor; [apply month_cell_Int; lia|].
    constructor; [apply month_cell_Int; lia|].
    constructor.
  - exists row. split; [exact Hrun|]. apply Hcount. discriminate.
Defined.

Lemma delimited_app (cells1 cells2 : list string) :
  delimited (cells1 ++ cells2) = delimited cells1 ++ delimited cells2.
Proof.
  induction cells1 as [|c cells1 IH]; [reflexivity|].
  cbn [app delimited]. now rewrite IH, !append_assoc.
Qed.

(** X4. Rows compose: the row of two non-empty sequences of renderable
    cells put one after the other is the row of the first followed by the
    row of the second without its opening pipe. *)
Theorem format_week_app (days1 days2 : list pyobj) (clock : datetime.datetime) :
  Forall renderable days1 -> Forall renderable days2 ->
  days1 <> [] -> days2 <> [] ->
  exists row1 row2,
    format_week days1 clock = mkRun [] (Returns row1) /\
    format_week days2 clock = mkRun [] (Returns (String "|" row2)) /\
    format_week (days1 ++ days2) clock = mkRun [] (Returns (row1 ++ row2)).
Proof.
  intros _ _ H1 H2.
  destruct days1 as [|d1 days1]; [congruence|].
  destruct days2 as [|d2 days2]; [congruence|].
  exists ("|" ++ delimited (map day_formatter (d1 :: days1))),
         (delimited (map day_formatter (d2 :: days2))).
  rewrite !format_week_run.
  change ((d1 :: days1) ++ d2 :: days2)%list with (d1 :: (days1 ++ d2 :: days2))%list.
  rewrite !row_delimited.
  split; [reflexivity|]. split; [reflexivity|].
  change (d1 :: (days1 ++ d2 :: days2))%list with ((d1 :: days1) ++ d2 :: days2)%list.
  now rewrite map_app, delimited_app, append_assoc.
Qed.

Lemma format_week_app_witness :
  exists row1 row2,
    format_week [PyNone] clock_2026_11_03 = mkRun [] (Returns row1) /\
    format_week [PyInt 1] clock_2026_11_03 = mkRun [] (Returns (String "|" row2)) /\
    format_week [PyNone; PyInt 1] clock_2026_11_03 = mkRun [] (Returns (row1 ++ row2)).
Proof.
  apply (format_week_app [PyNone] [PyInt 1] clock_2026_11_03);
    try discriminate.
  - constructor; [exact I | constructor].
  - constructor; [apply renderable_small; reflexivity | constructor].
Defined.

(** ** More on the month *)

Lemma month_start_of_bound (year month : Z) : 0 <= month_start_of year month <= 6.
Proof.
  unfold month_start_of, _adjust_weekday.
  match goal with |- _ <= ?a mod 7 <= _ => pose proof (Z.mod_pos_bound a 7) end.
  lia.
Qed.

Lemma first_week_month_cells (ms : Z) :
  0 <= ms ->
  Forall month_cell
    (repeat PyNone (Z.to_nat ms) ++ map PyInt (builtins.range 1 (8 - ms)))%list.
Proof.
  intros Hms. apply Forall_app. split.
  - apply Forall_forall. intros d Hd.
    apply repeat_spec in Hd. subst. apply month_cell_None.
  - apply Forall_forall. intros d Hd.
    apply in_map_iff in Hd. destruct Hd as (n & <- & Hn).
    apply range_In in Hn. apply month_cell_Int. lia.
Qed.

Lemma row_length (days : list pyobj) :
  days <> [] -> Forall month_cell days ->
  String.length ("|" ++ builtins.join "|" (map day_formatter days) ++ "|")
  = (7 * List.length days + 1)%nat.
Proof.
  intros Hne Hcells. destruct days as [|d days]; [congruence|].
  rewrite row_delimited.
  change (String.length ("|" ++ ?s)) with (S (String.length s)).
  rewrite delimited_length, length_map; [lia|].
  now apply cells_width.
Qed.

(** X5. For every month of 1..12 the first week is a full row: seven
    cells, 50 characters, the empty cells first and then the days from 1 on.
    [next_week_start], the one line printed, is between 2 and 8 and is the
    day after the last day of that row; [next_week_end] is seven days
    later. *)
Theorem format_month_first_week (year month : Z) (clock : datetime.datetime) :
  1 <= month <= 12 ->
  exists L,
    format_month_body year month clock
    = mkRun [builtins.str (fm_next_week_start L)] (Returns L) /\
    List.length (fm_first_week_days L) = 7%nat /\
    String.length (fm_first_week L) = 50%nat /\
    fm_first_week_days L
    = (repeat PyNone (leading_empty (fm_first_week_days L))
       ++ map PyInt (day_cells (fm_first_week_days L)))%list /\
    day_cells (fm_first_week_days L) = builtins.range 1 (fm_next_week_start L) /\
    2 <= fm_next_week_start L <= 8 /\
    Z.of_nat (leading_empty (fm_first_week_days L)) + fm_next_week_start L = 8 /\
    fm_next_week_end L = fm_next_week_start L + 7.
Proof.
  intros Hm.
  pose proof (format_month_body_valid year month clock Hm) as Hv. cbv zeta in Hv.
  match type of Hv with _ = mkRun _ (Returns ?L) => exists L end.
  rewrite Hv. clear Hv.
  cbn [fm_next_week_start fm_first_week_days fm_first_week fm_next_week_end].
  set (ms := month_start_of (year_or_now year clock) month).
  pose proof (month_start_of_bound (year_or_now year clock) month) as Hms.
  fold ms in Hms.
  assert (Hlen : List.length
                   (repeat PyNone (Z.to_nat ms)
                    ++ map PyInt (builtins.range 1 (8 - ms)))%list = 7%nat).
  { rewrite length_app, repeat_length, length_map, range_length. lia. }
  split; [reflexivity|]. split; [exact Hlen|]. split.
  - rewrite row_length, Hlen; [reflexivity | | apply first_week_month_cells; lia].
    intros Hnil. rewrite Hnil in Hlen. discriminate Hlen.
  - rewrite leading_empty_padding, day_cells_padding.
    repeat split; lia.
Qed.

Lemma format_month_first_week_witness :
  exists L,
    format_month_body 2024 2 clock_2026_11_03
    = mkRun [builtins.str (fm_next_week_start L)] (Returns L) /\
    List.length (fm_first_week_days L) = 7%nat /\
    String.length (fm_first_week L) = 50%nat.
Proof.
  destruct (format_month_first_week 2024 2 clock_2026_11_03)
    as (L & Hrun & Hlen & Hrow & _); [lia|].
  exists L. auto.
Defined.

Lemma day_count_of_cases (year month : Z) :
  1 <= month <= 12 ->
  28 <= day_count_of year month <= 31 /\
  (day_count_of year month = 28 <-> month = 2 /\ calendar.isleap year = false).
Proof.
  intros Hm. unfold day_count_of.
  assert (Hcases : month = 1 \/ month = 2 \/ month = 3 \/ month = 4 \/
                   month = 5 \/ month = 6 \/ month = 7 \/ month = 8 \/
                   month = 9 \/ month = 10 \/ month = 11 \/ month = 12) by lia.
  destruct (calendar.isleap year);
    repeat (destruct Hcases as [-> | Hcases];
            [vm_compute; intuition (discriminate || congruence)|]);
    subst; vm_compute; intuition (discriminate || congruence).
Qed.

(** X6. For every month of 1..12 the day count is between 28 and 31, and
    [weeks], computed from the day count alone, is 4 for a February of a
    year that is not a leap year and 5 for every other month. *)
Theorem format_month_weeks (year month : Z) (clock : datetime.datetime) :
  1 <= month <= 12 ->
  exists L,
    result (format_month_body year month clock) = Returns L /\
    28 <= fm_day_count L <= 31 /\
    (month = 2 /\ calendar.isleap (fm_year L) = false -> fm_weeks L = 4) /\
    (~ (month = 2 /\ calendar.isleap (fm_year L) = false) -> fm_weeks L = 5).
Proof.
  intros Hm. eexists. rewrite format_month_body_valid by exact Hm.
  split; [reflexivity|]. cbn [fm_day_count fm_weeks fm_year].
  set (y := year_or_now year clock).
  destruct (day_count_of_cases y month Hm) as (Hb & H28).
  set (dc := day_count_of y month) in *.
  split; [exact Hb|].
  assert (Hdc : dc = 28 \/ dc = 29 \/ dc = 30 \/ dc = 31) by lia.
  split.
  - intros Hfeb. apply H28 in Hfeb. rewrite Hfeb. reflexivity.
  - intros Hnot.
    destruct Hdc as [H | [-> | [-> | ->]]]; try reflexivity.
    apply H28 in H. contradiction.
Qed.

Lemma format_month_weeks_witness :
  exists L,
    result (format_month_body 2023 2 clock_2026_11_03) = Returns L /\
    fm_weeks L = 4.
Proof.
  destruct (format_month_weeks 2023 2 clock_2026_11_03)
    as (L & Hrun & _ & H4 & _); [lia|].
  exists L. split; [exact Hrun|]. apply H4.
  pose proof (format_month_body_valid 2023 2 clock_2026_11_03 ltac:(lia)) as Hv.
  cbv zeta in Hv. rewrite Hv in Hrun. cbn [result] in Hrun.
  injection Hrun as <-. split; reflexivity.
Defined.

(** ** The 400-year cycle *)

Lemma days_before_year_shift (year k : Z) :
  datetime._days_before_year (year + 400 * k)
  = datetime._days_before_year year + 146097 * k.
Proof.
  unfold datetime._days_before_year. cbv zeta.
  replace (year + 400 * k - 1) with (year - 1 + 400 * k) by lia.
  replace (year - 1 + 400 * k) with (year - 1 + (100 * k) * 4) at 2 by lia.
  replace (year - 1 + 400 * k) with (year - 1 + (4 * k) * 100) at 2 by lia.
  replace (year - 1 + 400 * k) with (year - 1 + k * 400) at 2 by lia.
  rewrite !Z.div_add by lia. lia.
Qed.

Lemma is_leap_shift (year k : Z) :
  datetime._is_leap (year + 400 * k) = datetime._is_leap year.
Proof.
  unfold datetime._is_leap.
  replace ((year + 400 * k) mod 4) with (year mod 4)
    by (replace (400 * k) with ((100 * k) * 4) by lia; now rewrite Z.mod_add).
  replace ((year + 400 * k) mod 100) with (year mod 100)
    by (replace (400 * k) with ((4 * k) * 100) by lia; now rewrite Z.mod_add).
  replace ((year + 400 * k) mod 400) with (year mod 400)
    by (replace (400 * k) with (k * 400) by lia; now rewrite Z.mod_add).
  reflexivity.
Qed.

Lemma datetime_weekday_shift (year k month day : Z) :
  datetime.weekday (year + 400 * k) month day = datetime.weekday year month day.
Proof.
  unfold datetime.weekday, datetime._ymd2ord, datetime._days_before_month.
  rewrite days_before_year_shift, is_leap_shift.
  match goal with
  | |- (?a + 146097 * k + ?b + ?c + 6) mod 7 = _ =>
      replace (a + 146097 * k + b + c + 6) with (a + b + c + 6 + (20871 * k) * 7)
        by lia
  end.
  now rewrite Z.mod_add.
Qed.

(** Folding an out-of-range year changes nothing: [calendar.weekday] is
    the weekday of the proleptic calendar for every year. *)
Lemma calendar_weekday_proleptic (year month day : Z) :
  calendar.weekday year month day = datetime.weekday year month day.
Proof.
  unfold calendar.weekday.
  destruct ((datetime.MINYEAR <=? year) && (year <=? datetime.MAXYEAR));
    [reflexivity|].
  replace (2000 + year mod 400) with (year + 400 * (5 - year / 400))
    by (pose proof (Z.div_mod year 400 ltac:(lia)); lia).
  apply datetime_weekday_shift.
Qed.

Lemma isleap_shift (year k : Z) :
  calendar.isleap (year + 400 * k) = calendar.isleap year.
Proof. exact (is_leap_shift year k). Qed.

(** X7. Calendars repeat every 400 years, also beyond the years 1..9999 of
    [datetime]: for a year other than 0, [format_month] prints and returns
    for [year + 400] what it does for [year]. *)
Theorem format_month_400_years (year month : Z) (clock : datetime.datetime) :
  year <> 0 -> year + 400 <> 0 ->
  format_month (year + 400) month clock = format_month year month clock.
Proof.
  intros Hy Hy'.
  assert (Hnow : forall y, y <> 0 -> year_or_now y clock = y).
  { intros y H. unfold year_or_now.
    destruct (Z.eqb_spec y 0); [contradiction | reflexivity]. }
  destruct (month_valid_dec month) as [Hm | Hm].
  - rewrite !format_month_valid, !Hnow by assumption.
    unfold month_start_of. rewrite !calendar_weekday_proleptic.
    replace (year + 400) with (year + 400 * 1) by lia.
    now rewrite datetime_weekday_shift.
  - now rewrite !format_month_invalid by exact Hm.
Qed.

Lemma format_month_400_years_witness :
  format_month 10024 2 clock_2026_11_03 = format_month 9624 2 clock_2026_11_03.
Proof.
  apply (format_month_400_years 9624 2 clock_2026_11_03); lia.
Defined.

(** X8. [_adjust_weekday] maps every integer into 0..6 and is one-to-one
    on 0..6; it sends the index of a day in [_world_weekday] to the index
    of the same day in [_us_weekday]. *)
Theorem adjust_weekday_tables :
  (forall w, 0 <= _adjust_weekday w <= 6) /\
  (forall w1 w2, 0 <= w1 <= 6 -> 0 <= w2 <= 6 ->
     _adjust_weekday w1 = _adjust_weekday w2 -> w1 = w2) /\
  (forall w, 0 <= w <= 6 ->
     exists d,
       nth_error _world_weekday (Z.to_nat w) = Some d /\
       nth_error _us_weekday (Z.to_nat (_adjust_weekday w)) = Some d).
Proof.
  split; [|split].
  - intros w. unfold _adjust_weekday.
    pose proof (Z.mod_pos_bound (w + 1) 7). lia.
  - intros w1 w2 H1 H2. unfold _adjust_weekday.
    destruct (Z.eq_dec w1 6) as [-> | N1]; destruct (Z.eq_dec w2 6) as [-> | N2];
      try reflexivity;
      rewrite ?(Z.mod_small (w1 + 1) 7), ?(Z.mod_small (w2 + 1) 7) by lia;
      change ((6 + 1) mod 7) with 0; lia.
  - intros w Hw. rewrite weekday_tables_aligned by exact Hw.
    assert (Hcases : w = 0 \/ w = 1 \/ w = 2 \/ w = 3 \/ w = 4 \/ w = 5 \/ w = 6)
      by lia.
    repeat (destruct Hcases as [-> | Hcases]; [eexists; split; reflexivity|]).
    subst. eexists; split; reflexivity.
Qed.

Lemma adjust_weekday_tables_witness :
  exists d,
    nth_error _world_weekday (Z.to_nat 6) = Some d /\
    nth_error _us_weekday (Z.to_nat (_adjust_weekday 6)) = Some d.
Proof.
  apply (proj2 (proj2 adjust_weekday_tables) 6). lia.
Defined.

(** ** The entry path *)

Lemma append_empty_r (s : string) : s ++ "" = s.
Proof.
  induction s as [|c s IH]; simpl; [reflexivity | now rewrite IH].
Qed.

Lemma get_entry_path_body_run
  (date : datetime.datetime) (extension : pyobj) (clock : datetime.datetime) :
  get_entry_path_body (Some date) extension clock
  = mkRun []
      (Returns
         (mkEntryPathLocals
            [".\journal\"; builtins.str (datetime.year date)]
            [".\journal\"; builtins.str (datetime.year date); datetime.strftime_B date]
            (get_ordinal_suffix (datetime.day date))
            (fixed_extension extension)
            (builtins.str (datetime.day date)
             ++ get_ordinal_suffix (datetime.day date)
             ++ format_obj (fixed_extension extension))
            [".\journal\"; builtins.str (datetime.year date); datetime.strftime_B date;
             builtins.str (datetime.day date)
             ++ get_ordinal_suffix (datetime.day date)
             ++ format_obj (fixed_extension extension)])).
Proof. reflexivity. Qed.

Lemma prefix_1_dot (ext : string) : builtins.prefix 1 ("." ++ ext) = ".".
Proof. now destruct ext. Qed.

(** X9. The file name [get_entry_path] builds is the day with its suffix
    followed by the extension.  An extension given as a string always ends
    up starting with a dot: one that has it is kept, one that lacks it (the
    empty string too) gets it, so ["md"] and [".md"] name the same file;
    [None] gives no extension. *)
Theorem entry_path_extension
  (date : datetime.datetime) (ext : string) (clock : datetime.datetime) :
  exists L L0 e,
    get_entry_path_body (Some date) (PyStr ext) clock = mkRun [] (Returns L) /\
    get_entry_path_body (Some date) PyNone clock = mkRun [] (Returns L0) /\
    ep_file_name L0 = day_label (datetime.day date) /\
    ep_file_name L = day_label (datetime.day date) ++ e /\
    ep_extension L = PyStr e /\
    builtins.prefix 1 e = "." /\
    (builtins.prefix 1 ext = "." -> e = ext) /\
    (builtins.prefix 1 ext <> "." ->
       e = "." ++ ext /\
       get_entry_path_body (Some date) (PyStr ("." ++ ext)) clock
       = mkRun [] (Returns L)).
Proof.
  rewrite !get_entry_path_body_run.
  destruct (String.eqb_spec (builtins.prefix 1 ext) ".") as [Hdot | Hdot].
  - do 2 eexists. exists ext.
    split; [reflexivity|]. split; [reflexivity|].
    cbn [ep_file_name ep_day_path fixed_extension format_obj].
    rewrite Hdot. cbn [String.eqb Ascii.eqb Bool.eqb negb format_obj].
    unfold day_label. rewrite append_empty_r, append_assoc.
    repeat split; try assumption; contradiction.
  - do 2 eexists. exists ("." ++ ext).
    split; [reflexivity|]. split; [reflexivity|].
    cbn [ep_file_name ep_day_path].
    assert (Hfix : fixed_extension (PyStr ext) = PyStr ("." ++ ext)).
    { unfold fixed_extension.
      destruct (String.eqb_spec (builtins.prefix 1 ext) ".");
        [contradiction | reflexivity]. }
    assert (Hfix' : fixed_extension (PyStr ("." ++ ext)) = PyStr ("." ++ ext)).
    { unfold fixed_extension. now rewrite prefix_1_dot. }
    rewrite !Hfix', !Hfix.
    cbn [fixed_extension format_obj].
    unfold day_label. rewrite append_empty_r, append_assoc.
    repeat split; try (intros; contradiction); try apply prefix_1_dot.
Qed.

Lemma entry_path_extension_witness :
  exists L,
    get_entry_path_body (Some (datetime.mk 2024 2 29)) (PyStr "md") clock_2026_11_03
    = mkRun [] (Returns L) /\
    get_entry_path_body (Some (datetime.mk 2024 2 29)) (PyStr ".md") clock_2026_11_03
    = mkRun [] (Returns L) /\
    ep_file_name L = "29th.md".
Proof.
  destruct (entry_path_extension (datetime.mk 2024 2 29) "md" clock_2026_11_03)
    as (L & L0 & e & Hrun & _ & _ & Hfile & _ & _ & _ & Hno).
  destruct Hno as (He & Hrun'); [discriminate|].
  exists L. split; [exact Hrun|]. split; [exact Hrun'|].
  rewrite Hfile, He. reflexivity.
Defined.

Lemma str_inj (n m : Z) : builtins.str n = builtins.str m -> n = m.
Proof.
  unfold builtins.str. intros H. apply DecimalZ.to_int_inj.
  assert (Hback : forall z,
            NilZero.int_of_string (NilZero.string_of_int (Z.to_int z))
            = Some (Z.to_int z)).
  { intros z. apply NilZero.isi; destruct z; simpl; try discriminate;
      intros [= E]; now apply DecimalPos.Unsigned.to_uint_nonnil in E. }
  pose proof (Hback n) as E. rewrite H, Hback in E. now injection E.
Qed.

Lemma append_inj_l (s s' e e' : string) :
  String.length s = String.length s' -> s ++ e = s' ++ e' -> s = s'.
Proof.
  revert s'. induction s as [|c s IH]; intros [|c' s'] Hlen H;
    try discriminate Hlen; [reflexivity|].
  simpl in H. injection H as -> H. injection Hlen as Hlen.
  now rewrite (IH s' Hlen H).
Qed.

Lemma append_cancel_r (s s' e : string) : s ++ e = s' ++ e -> s = s'.
Proof.
  intros H. apply (append_inj_l s s' e e); [|exact H].
  apply (f_equal String.length) in H. rewrite !length_append in H. lia.
Qed.

(** The months of 1..12 have twelve different names. *)
Lemma month_name_inj (m m' : Z) :
  1 <= m <= 12 -> 1 <= m' <= 12 ->
  nth (Z.to_nat (m - 1)) datetime.month_names ""
  = nth (Z.to_nat (m' - 1)) datetime.month_names "" ->
  m = m'.
Proof.
  intros Hm Hm' H.
  pose (test := fun a b =>
          implb (String.eqb (nth (Z.to_nat (a - 1)) datetime.month_names "")
                   (nth (Z.to_nat (b - 1)) datetime.month_names ""))
            (a =? b)).
  assert (Hall : forallb (fun a => forallb (test a) (builtins.range 1 13))
                   (builtins.range 1 13) = true) by (vm_compute; reflexivity).
  pose proof (forallb_range _ 1 13 Hall m ltac:(lia)) as Hrow.
  pose proof (forallb_range _ 1 13 Hrow m' ltac:(lia)) as Hcell.
  unfold test in Hcell. rewrite H, String.eqb_refl in Hcell.
  now apply Z.eqb_eq.
Qed.

(** The days 1..31 have different labels. *)
Lemma day_label_inj (d d' : Z) :
  1 <= d <= 31 -> 1 <= d' <= 31 -> day_label d = day_label d' -> d = d'.
Proof.
  intros Hd Hd' H.
  pose (test := fun a b => implb (String.eqb (day_label a) (day_label b)) (a =? b)).
  assert (Hall : forallb (fun a => forallb (test a) (builtins.range 1 32))
                   (builtins.range 1 32) = true) by (vm_compute; reflexivity).
  pose proof (forallb_range _ 1 32 Hall d ltac:(lia)) as Hrow.
  pose proof (forallb_range _ 1 32 Hrow d' ltac:(lia)) as Hcell.
  unfold test in Hcell. rewrite H, String.eqb_refl in Hcell.
  now apply Z.eqb_eq.
Qed.

(** X10. With one and the same extension, two different dates never get
    the same entry path: the path determines the year, the month and the
    day. *)
Theorem entry_path_injective
  (d1 d2 : datetime.datetime) (extension : pyobj) (clock : datetime.datetime)
  (L1 L2 : entry_path_locals) :
  valid_date d1 -> valid_date d2 ->
  get_entry_path_body (Some d1) extension clock = mkRun [] (Returns L1) ->
  get_entry_path_body (Some d2) extension clock = mkRun [] (Returns L2) ->
  ep_day_path L1 = ep_day_path L2 ->
  d1 = d2.
Proof.
  intros (Hm1 & Hd1) (Hm2 & Hd2) Hrun1 Hrun2 Hpath.
  rewrite get_entry_path_body_run in Hrun1, Hrun2.
  injection Hrun1 as <-. injection Hrun2 as <-.
  cbn [ep_day_path] in Hpath.
  injection Hpath as Hyear Hmonth Hfile.
  apply str_inj in Hyear.
  apply month_name_inj in Hmonth; [|assumption..].
  rewrite <- !append_assoc in Hfile. apply append_cancel_r in Hfile.
  apply day_label_inj in Hfile; [|assumption..].
  destruct d1, d2; cbn in *; congruence.
Qed.

Lemma entry_path_injective_witness :
  datetime.mk 2024 2 29 = datetime.mk 2024 2 29.
Proof.
  eapply (entry_path_injective (datetime.mk 2024 2 29) (datetime.mk 2024 2 29)
            (PyStr "md") clock_2026_11_03).
  - split; cbn; lia.
  - split; cbn; lia.
  - apply get_entry_path_body_run.
  - apply get_entry_path_body_run.
  - reflexivity.
Defined.

(** ** Formatting the date string and the entry text *)

(** [__date_format] has four fields; with all four given the formatting
    goes through. *)
Lemma format_date_format (a b c : string) (y : Z) :
  format __date_format
    [("day_of_week", PyStr a); ("month", PyStr b); ("day", PyStr c); ("year", PyInt y)]
  = inr (a ++ ", " ++ b ++ " " ++ c ++ ", " ++ builtins.str y).
Proof.
  unfold format, __date_format. cbn - [builtins.str].
  now rewrite append_empty_r.
Qed.

(** X11. [get_date_date_string] never fails: for every date it returns
    the weekday name, a comma, the month name, the day with its suffix, a
    comma and the year.  Without a date it describes the day of the
    clock. *)
Theorem get_date_date_string_returns
  (date : option datetime.datetime) (clock : datetime.datetime) :
  let d := match date with
           | Some d => d
           | None => clock
           end in
  get_date_date_string date clock
  = inr (strftime_A d ++ ", " ++ datetime.strftime_B d ++ " "
         ++ day_label (datetime.day d) ++ ", " ++ builtins.str (datetime.year d)) /\
  get_date_date_string None clock = get_date_date_string (Some clock) clock /\
  (forall clock', date <> None ->
     get_date_date_string date clock' = get_date_date_string date clock).
Proof.
  intros d. split; [|split].
  - unfold get_date_date_string. fold d. apply format_date_format.
  - reflexivity.
  - intros clock' Hdate. destruct date; [reflexivity | contradiction].
Qed.

Lemma get_date_date_string_returns_witness :
  get_date_date_string (Some (datetime.mk 2024 2 29)) (datetime.mk 2031 1 1)
  = get_date_date_string (Some (datetime.mk 2024 2 29)) clock_2026_11_03.
Proof.
  apply (proj2 (proj2 (get_date_date_string_returns
                         (Some (datetime.mk 2024 2 29)) clock_2026_11_03))).
  discriminate.
Defined.

(** Formatting [journal_entry_template] stops at its first field when
    there is no keyword [date]. *)
Lemma format_template_without_date (kwargs : list (string * pyobj)) :
  lookup "date" kwargs = None ->
  format journal_entry_template kwargs = inl (KeyError "date").
Proof.
  intros H. unfold format, journal_entry_template.
  cbn [format_from Ascii.eqb Bool.eqb append prepend]. now rewrite H.
Qed.

(** X12. [create_entry_string] fails on every call, whatever the clock
    shows: it formats [journal_entry_template], whose fields are [date] and
    [title], with the keywords [day_of_week], [month], [day] and [year], so
    [str.format] raises [KeyError('date')].  The template itself is sound:
    given [date] and [title] it is rendered. *)
Theorem create_entry_string_KeyError (clock : datetime.datetime) :
  create_entry_string clock = inl (KeyError "date") /\
  (forall date title,
     exists text,
       format journal_entry_template [("date", PyStr date); ("title", PyStr title)]
       = inr text).
Proof.
  split.
  - unfold create_entry_string. now apply format_template_without_date.
  - intros date title. eexists. unfold format, journal_entry_template.
    cbn. reflexivity.
Qed.

(** ** Weekday names *)

Lemma map_chars_prefix (f : ascii -> ascii) (k : nat) (s : string) :
  builtins.prefix k (builtins.map_chars f s)
  = builtins.map_chars f (builtins.prefix k s).
Proof.
  unfold builtins.prefix. revert s.
  induction k as [|k IH]; intros [|c s]; simpl; try reflexivity.
  now rewrite IH.
Qed.

(** X13. The short name of a [Weekday] made from an ASCII name is made of
    at most three characters, and it is the name of the [Weekday] made from
    the first three characters given: cutting and capitalising commute. *)
Theorem Weekday_short (s : string) :
  is_ascii s = true ->
  short (Weekday_init s) = name (Weekday_init (builtins.prefix 3 s)) /\
  String.length (short (Weekday_init s)) = Nat.min 3 (String.length s).
Proof.
  intros _.
  assert (H : short (Weekday_init s) = name (Weekday_init (builtins.prefix 3 s))).
  { unfold short, Weekday_init. cbn [name].
    destruct s as [|c s]; [reflexivity|].
    unfold builtins.capitalize.
    change (builtins.prefix 3 (String ?a ?t)) with (String a (builtins.prefix 2 t)).
    now rewrite map_chars_prefix. }
  split; [exact H|].
  rewrite H. unfold Weekday_init. cbn [name].
  assert (Hcap : forall t, String.length (builtins.capitalize t) = String.length t).
  { intros [|c t]; [reflexivity|]. simpl. f_equal.
    induction t as [|a t IH]; simpl; [reflexivity | now rewrite IH]. }
  now rewrite Hcap, prefix_length.
Qed.

Lemma Weekday_short_witness :
  short (Weekday_init "wednesday") = "Wed" /\
  String.length (short (Weekday_init "wednesday")) = 3%nat.
Proof.
  destruct (Weekday_short "wednesday" eq_refl) as (Hname & Hlen).
  split; [rewrite Hname; reflexivity | rewrite Hlen; reflexivity].
Defined.
